(** * senec2mqtt: the thread based data collector

    A shallow embedding of [src/senec2mqtt/senec_data_collector.py].

    The class [SenecDataCollector] owns four attributes ([_host_ip],
    [_interval_s], [_stop_event], [_queue]); it writes to the [logging]
    module, calls the pysenec device through an asyncio bridge and sleeps
    with [time.sleep].  The attributes are a record, the surroundings
    (log, device calls, slept time) a second record, and every method is a
    function in a state monad whose results are a returned value, a raised
    exception, or a caller suspended on an empty queue. *)

From Stdlib Require Import String ZArith List Lia Bool Arith.
From Equations Require Import Equations.
From Equations.Prop Require Import Logic.
Import ListNotations.

Set Implicit Arguments.
Open Scope string_scope.
Open Scope Z_scope.
Open Scope list_scope.

(** ** Exceptions and log records *)

Inductive Exn : Type :=
| ValueError (msg : string)          (* raised by the constructor *)
| RuntimeError (got : nat)           (* "Expect exact one set of data ..., but got: {got}!" *)
| QueueEmpty                         (* queue.Empty *)
| FetchError (reason : string).      (* whatever aiohttp / pysenec raise *)

Inductive LogLevel : Type := DEBUG | WARNING.

Definition LogRecord : Type := (LogLevel * string)%type.

Definition interval_warning : string :=
  "The logging interval is below the recommended period time (1 min),
may this leads to trouble with the device connection to the cloud!".

(** ** The result of running a piece of code *)

Inductive Result (A : Type) : Type :=
| Return (a : A)      (* normal completion *)
| Raise (e : Exn)     (* an exception leaves the code *)
| Block.              (* the caller waits on an empty queue *)

Arguments Return {A} a.
Arguments Raise {A} e.
Arguments Block {A}.

(** State passing with exceptions: the state reached when an exception is
    raised is kept, as attribute updates made before a [raise] are in
    Python. *)
Definition M (S A : Type) : Type := S -> Result A * S.

Definition ret {S A : Type} (a : A) : M S A := fun s => (Return a, s).

Definition raise {S A : Type} (e : Exn) : M S A := fun s => (Raise e, s).

Definition bind {S A B : Type} (m : M S A) (k : A -> M S B) : M S B :=
  fun s =>
    match m s with
    | (Return a, s') => k a s'
    | (Raise e, s') => (Raise e, s')
    | (Block, s') => (Block, s')
    end.

Definition gets {S A : Type} (f : S -> A) : M S A := fun s => (Return (f s), s).

Definition modify {S : Type} (f : S -> S) : M S unit := fun s => (Return tt, f s).

(** [try: m except handler]: only raised exceptions reach the handler,
    which re-raises the ones it does not catch. *)
Definition try_except {S A : Type} (m : M S A) (handler : Exn -> M S A) : M S A :=
  fun s =>
    match m s with
    | (Raise e, s') => handler e s'
    | r => r
    end.

Declare Scope py_scope.
Delimit Scope py_scope with py.
Notation "x <- m ;; k" := (bind m (fun x => k))
  (at level 61, m at next level, right associativity) : py_scope.
Notation "m ;; k" := (bind m (fun _ => k))
  (at level 61, right associativity) : py_scope.
Open Scope py_scope.

(** ** The surroundings of a collector *)

Module Env.

Record t : Type := mk {
  logging : list LogRecord;    (* records emitted so far, oldest first *)
  fetch_calls : list string;   (* hosts the device was asked for, in call order *)
  slept : Z                    (* seconds spent in time.sleep *)
}.

Definition empty : t := mk [] [] 0.

Definition log (lvl : LogLevel) (msg : string) (e : t) : t :=
  mk (logging e ++ [(lvl, msg)]) (fetch_calls e) (slept e).

Definition call (host : string) (e : t) : t :=
  mk (logging e) (fetch_calls e ++ [host]) (slept e).

Definition sleep (secs : Z) (e : t) : t :=
  mk (logging e) (fetch_calls e) (slept e + secs).

Definition warnings (e : t) : list string :=
  map snd (filter (fun r => match fst r with WARNING => true | DEBUG => false end)
                  (logging e)).

End Env.

(** ** queue.Queue, unbounded *)

Module Queue.
Section Queue.
Variable A : Type.

(** Oldest item first. *)
Definition t : Type := list A.

Definition empty : t := [].

Definition put (item : A) (q : t) : t := q ++ [item].

Definition qsize (q : t) : Z := Z.of_nat (length q).

(** [get(block)]: the oldest item and the rest; on an empty queue
    [queue.Empty] when [block] is false, and a wait otherwise. *)
Definition get (block : bool) (q : t) : Result A * t :=
  match q with
  | item :: rest => (Return item, rest)
  | [] => if block then (Block, q) else (Raise QueueEmpty, q)
  end.

End Queue.
End Queue.

(** ** class SenecDataCollector(threading.Thread) *)

Module SenecDataCollector.
Section Collector.

(** The raw status dict of the device.  The collector passes it on and
    never looks inside, so it stays a parameter. *)
Variable RawStatus : Type.

(** The attributes of an instance; [_stop_event] holds the flag of the
    [threading.Event]. *)
Record Collector : Type := mkCollector {
  _host_ip : string;
  _interval_s : Z;
  _stop_event : bool;
  _queue : Queue.t RawStatus
}.

Record World : Type := mkWorld {
  self : Collector;
  env : Env.t
}.

Definition set_stop_event (c : Collector) : Collector :=
  mkCollector (_host_ip c) (_interval_s c) true (_queue c).

Definition with_queue (q : Queue.t RawStatus) (c : Collector) : Collector :=
  mkCollector (_host_ip c) (_interval_s c) (_stop_event c) q.

Definition on_self (f : Collector -> Collector) (w : World) : World :=
  mkWorld (f (self w)) (env w).

Definition on_env (f : Env.t -> Env.t) (w : World) : World :=
  mkWorld (self w) (f (env w)).

(** What [loop.run_until_complete(asyncio.gather(run(host=...)))]
    answers on its i-th use (counted from 0) for a host: the exception
    that leaves it, or the list of gathered results.  asyncio answers one
    awaitable with a one-element list; the embedding does not assume it,
    as the source checks the length itself. *)
Variable gather : nat -> string -> Exn + list RawStatus.

(** *** logging *)

Definition logging_warning (msg : string) : M Env.t unit :=
  modify (Env.log WARNING msg).

Definition logging_debug (msg : string) : M World unit :=
  modify (on_env (Env.log DEBUG msg)).

(** *** __init__ *)

Definition __init__ (senec_ip : string) (interval_s : Z) : M Env.t Collector :=
  (if interval_s <? 60 then logging_warning interval_warning else ret tt) ;;
  (if interval_s <? 10
   then raise (ValueError "No interval below 10 sec allowed!")
   else ret tt) ;;
  ret (mkCollector senec_ip interval_s false (Queue.empty RawStatus)).

(** *** stop *)

Definition stop : M World unit :=
  logging_debug "Stop event set" ;;
  modify (on_self set_stop_event).

(** *** _collect_data *)

Definition run_until_complete (host : string) : M World (list RawStatus) :=
  fun w =>
    let w' := on_env (Env.call host) w in
    match gather (length (Env.fetch_calls (env w))) host with
    | inl e => (Raise e, w')
    | inr collected_data => (Return collected_data, w')
    end.

Definition _collect_data : M World RawStatus :=
  (* todo: remove me *)
  stop ;;
  host <- gets (fun w => _host_ip (self w)) ;;
  collected_data <- run_until_complete host ;;
  if negb (length collected_data =? 1)%nat
  then raise (RuntimeError (length collected_data))
  else
    logging_debug "data collected" ;;
    match collected_data with
    | data :: _ => ret data
    | [] => raise (RuntimeError 0)
    end.

(** The exception one fetch cycle started in [w] ends with, if any: the
    one leaving the asyncio bridge, or the RuntimeError for a gathered
    list that does not hold exactly one result. *)
Definition cycle_error (w : World) : option Exn :=
  match gather (length (Env.fetch_calls (env w))) (_host_ip (self w)) with
  | inl e => Some e
  | inr collected_data =>
      if negb (length collected_data =? 1)%nat
      then Some (RuntimeError (length collected_data))
      else None
  end.

(** *** run *)

(** Where the thread is when it is looked at. *)
Inductive LoopStatus : Type :=
| Polling      (* still inside the while loop *)
| Stopped.     (* the loop saw the stop event and [run] returned *)

Definition queue_put (item : RawStatus) : M World unit :=
  modify (on_self (fun c => with_queue (Queue.put item (_queue c)) c)).

Definition time_sleep : M World unit :=
  modify (fun w => on_env (Env.sleep (_interval_s (self w))) w).

(** The while loop, followed for [periods] interval periods: every pass
    ends with one [time.sleep(self._interval_s)], so [periods] passes are
    what fits into that time. *)
Fixpoint run_loop (periods : nat) : M World LoopStatus :=
  is_set <- gets (fun w => _stop_event (self w)) ;;
  if is_set
  then logging_debug "collection thread stopped" ;; ret Stopped
  else
    match periods with
    | O => ret Polling
    | S periods' =>
        data <- _collect_data ;;
        queue_put data ;;
        time_sleep ;;
        run_loop periods'
    end.

Definition run (periods : nat) : M World LoopStatus :=
  logging_debug "collection thread started" ;;
  run_loop periods.

(** *** available_data, get_data *)

Definition available_data : M World Z :=
  gets (fun w => Queue.qsize (_queue (self w))).

Definition queue_get (block : bool) : M World RawStatus :=
  fun w =>
    let (r, q) := Queue.get block (_queue (self w)) in
    (r, on_self (with_queue q) w).

Definition get_data (block : bool) : M World (option RawStatus) :=
  try_except
    (item <- queue_get block ;; ret (Some item))
    (fun e => match e with
              | QueueEmpty => ret None
              | _ => raise e
              end).

(** *** get_all_data *)

(** The [while True] loop: it goes round once per queued item, so it is
    defined by recursion on the size of the queue that [get_data] leaves
    behind. *)
Equations? get_all_loop (data_list : list RawStatus) (w : World)
  : Result (list RawStatus) * World
  by wf (length (_queue (self w))) lt :=
  get_all_loop data_list w with inspect (get_data false w) := {
    | exist _ (Return (Some data), w') _ => get_all_loop (data_list ++ [data]) w';
    | exist _ (Return None, w') _ => (Return data_list, w');
    | exist _ (Raise e, w') _ => (Raise e, w');
    | exist _ (Block, w') _ => (Block, w') }.
Proof.
  revert e.
  unfold get_data, try_except, bind, queue_get, ret, Queue.get.
  destruct (_queue (self w)) as [|item rest]; simpl.
  - discriminate.
  - intros [= _ <-]. simpl. lia.
Qed.

Definition get_all_data : M World (list RawStatus) :=
  get_all_loop [].

End Collector.

Arguments mkCollector {RawStatus} _ _ _ _.
Arguments mkWorld {RawStatus} _ _.

End SenecDataCollector.

Import SenecDataCollector.

(** ** The producer side seen from the queue, and test doubles *)

(** Successive [self._queue.put(item)], one per item, in list order. *)
Definition put_all {RawStatus : Type} (items : list RawStatus)
  (w : World RawStatus) : World RawStatus :=
  fold_left (fun w' item => snd (queue_put item w')) items w.

(** [stop()] called [n] times in a row. *)
Definition stop_times {RawStatus : Type} (n : nat)
  (w : World RawStatus) : World RawStatus :=
  Nat.iter n (fun w' => snd (stop w')) w.

Module Stubs.

(** A reading such as [{"v": 1}]. *)
Definition Reading : Type := list (string * Z).

(** Answers the i-th request with [{"v": i+1}]. *)
Definition counting (i : nat) (host : string) : Exn + list Reading :=
  inr [[("v", Z.of_nat i + 1)]].

(** Fails on every request. *)
Definition failing (i : nat) (host : string) : Exn + list Reading :=
  inl (FetchError "Cannot connect to host").

(** Gathers two results where one is expected. *)
Definition doubled (i : nat) (host : string) : Exn + list Reading :=
  inr [[("v", 1)]; [("v", 2)]].

(** The collector of the module's own example run:
    [SenecDataCollector(senec_ip="192.168.178.49", interval_s=30)]. *)
Definition example_world : World Reading :=
  mkWorld (mkCollector "192.168.178.49" 30 false [])
          (Env.log WARNING interval_warning Env.empty).

End Stubs.

(** ** The code around a collector *)

(** One use of a collector by the code that owns it: a public method
    called on it, or its thread body followed for a number of periods. *)
Inductive Call : Type :=
| CallStop
| CallRun (periods : nat)
| CallAvailableData
| CallGetData (block : bool)
| CallGetAllData.

(** The world a call leaves behind, whether it returned, raised or
    left its caller waiting. *)
Definition after_call {RawStatus : Type}
  (gather : nat -> string -> Exn + list RawStatus)
  (c : Call) (w : World RawStatus) : World RawStatus :=
  match c with
  | CallStop => snd (stop w)
  | CallRun periods => snd (run gather periods w)
  | CallAvailableData => snd (available_data w)
  | CallGetData block => snd (get_data block w)
  | CallGetAllData => snd (get_all_data w)
  end.

Definition after_calls {RawStatus : Type}
  (gather : nat -> string -> Exn + list RawStatus)
  (calls : list Call) (w : World RawStatus) : World RawStatus :=
  fold_left (fun w' c => after_call gather c w') calls w.

(** * Properties *)

Unset Implicit Arguments.

(** ** Construction *)

Section Construction.

Variable RawStatus : Type.

Lemma warnings_log_warning (msg : string) (e : Env.t) :
  Env.warnings (Env.log WARNING msg e) = Env.warnings e ++ [msg].
Proof.
  unfold Env.warnings, Env.log. simpl.
  rewrite filter_app, map_app. reflexivity.
Qed.

Lemma init_eq (senec_ip : string) (interval_s : Z) (e : Env.t) :
  __init__ RawStatus senec_ip interval_s e =
  let e' := if interval_s <? 60 then Env.log WARNING interval_warning e else e in
  if interval_s <? 10
  then (Raise (ValueError "No interval below 10 sec allowed!"), e')
  else (Return (mkCollector senec_ip interval_s false []), e').
Proof.
  unfold __init__, bind, logging_warning, modify, ret, raise.
  destruct (interval_s <? 60); destruct (interval_s <? 10); reflexivity.
Qed.

(** C4: construction succeeds for every interval of at least 10
    seconds, giving a collector with the stop event clear and an empty
    queue; for every interval below 10 seconds it raises the ValueError
    "No interval below 10 sec allowed!" and gives no collector. *)
Theorem C4_construction_interval_bound
  (senec_ip : string) (interval_s : Z) (e : Env.t) :
  (10 <= interval_s ->
   fst (__init__ RawStatus senec_ip interval_s e) =
   Return (mkCollector senec_ip interval_s false [])) /\
  (interval_s < 10 ->
   fst (__init__ RawStatus senec_ip interval_s e) =
   Raise (ValueError "No interval below 10 sec allowed!")).
Proof.
  rewrite init_eq. cbv zeta.
  split; intros H.
  - apply Z.ltb_ge in H. rewrite H. reflexivity.
  - apply Z.ltb_lt in H. rewrite H. reflexivity.
Qed.

(** C5: for every interval from 10 up to, but not including, 60
    seconds the constructor adds the interval warning to the log as its
    newest warning; for every interval of 60 seconds or more it leaves
    the log as it found it. *)
Theorem C5_warning_between_10_and_60
  (senec_ip : string) (interval_s : Z) (e : Env.t) :
  (10 <= interval_s < 60 ->
   Env.warnings (snd (__init__ RawStatus senec_ip interval_s e)) =
   Env.warnings e ++ [interval_warning]) /\
  (60 <= interval_s ->
   snd (__init__ RawStatus senec_ip interval_s e) = e).
Proof.
  rewrite init_eq. cbv zeta.
  split; intros H.
  - assert (H60 : (interval_s <? 60) = true) by (apply Z.ltb_lt; lia).
    assert (H10 : (interval_s <? 10) = false) by (apply Z.ltb_ge; lia).
    rewrite H60, H10. simpl. apply warnings_log_warning.
  - assert (H60 : (interval_s <? 60) = false) by (apply Z.ltb_ge; lia).
    assert (H10 : (interval_s <? 10) = false) by (apply Z.ltb_ge; lia).
    rewrite H60, H10. reflexivity.
Qed.

(** C9: for every interval below 10 seconds the constructor has
    already logged the interval warning when it raises: the ValueError
    leaves it with the warning as the newest record of the log. *)
Theorem C9_warning_precedes_rejection
  (senec_ip : string) (interval_s : Z) (e : Env.t) :
  interval_s < 10 ->
  __init__ RawStatus senec_ip interval_s e =
  (Raise (ValueError "No interval below 10 sec allowed!"),
   Env.log WARNING interval_warning e).
Proof.
  intros H. rewrite init_eq. cbv zeta.
  assert (H60 : (interval_s <? 60) = true) by (apply Z.ltb_lt; lia).
  assert (H10 : (interval_s <? 10) = true) by (apply Z.ltb_lt; lia).
  rewrite H60, H10. reflexivity.
Qed.

End Construction.

(** The example collector of the stubs is the one the constructor builds
    for an interval of 30 seconds, warning included. *)
Lemma example_world_constructed :
  __init__ Stubs.Reading "192.168.178.49" 30 Env.empty =
  (Return (self Stubs.example_world), env Stubs.example_world).
Proof. reflexivity. Qed.

Lemma C4_construction_interval_bound_witness :
  (10 <= 10 /\
   fst (__init__ Stubs.Reading "192.168.178.49" 10 Env.empty) =
   Return (mkCollector "192.168.178.49" 10 false [])) /\
  (9 < 10 /\
   fst (__init__ Stubs.Reading "192.168.178.49" 9 Env.empty) =
   Raise (ValueError "No interval below 10 sec allowed!")).
Proof.
  split; split; try lia.
  - apply (proj1 (C4_construction_interval_bound
                    Stubs.Reading "192.168.178.49" 10 Env.empty)). lia.
  - apply (proj2 (C4_construction_interval_bound
                    Stubs.Reading "192.168.178.49" 9 Env.empty)). lia.
Defined.

Lemma C5_warning_between_10_and_60_witness :
  (10 <= 30 < 60 /\
   Env.warnings (snd (__init__ Stubs.Reading "192.168.178.49" 30 Env.empty)) =
   [interval_warning]) /\
  (60 <= 60 /\
   snd (__init__ Stubs.Reading "192.168.178.49" 60 Env.empty) = Env.empty).
Proof.
  split; split; try lia.
  - apply (proj1 (C5_warning_between_10_and_60
                    Stubs.Reading "192.168.178.49" 30 Env.empty)). lia.
  - apply (proj2 (C5_warning_between_10_and_60
                    Stubs.Reading "192.168.178.49" 60 Env.empty)). lia.
Defined.

Lemma C9_warning_precedes_rejection_witness :
  5 < 10 /\
  __init__ Stubs.Reading "192.168.178.49" 5 Env.empty =
  (Raise (ValueError "No interval below 10 sec allowed!"),
   Env.log WARNING interval_warning Env.empty).
Proof.
  split; [lia |].
  apply (C9_warning_precedes_rejection Stubs.Reading "192.168.178.49" 5 Env.empty).
  lia.
Defined.

(** ** The consumer's side of the queue *)

Section Consumer.

Variable RawStatus : Type.

Lemma with_queue_same (w : World RawStatus) :
  on_self (with_queue (_queue (self w))) w = w.
Proof. destruct w as [[host interval flag q] e]. reflexivity. Qed.

Lemma get_data_false_eq (w : World RawStatus) :
  get_data false w =
  match _queue (self w) with
  | [] => (Return None, w)
  | item :: rest => (Return (Some item), on_self (with_queue rest) w)
  end.
Proof.
  unfold get_data, try_except, bind, queue_get, ret, Queue.get.
  destruct (_queue (self w)) as [|item rest] eqn:Hq; simpl.
  - rewrite <- Hq. rewrite with_queue_same. reflexivity.
  - reflexivity.
Qed.

Lemma get_all_loop_eq (data_list : list RawStatus) (w : World RawStatus) :
  get_all_loop data_list w =
  (Return (data_list ++ _queue (self w)), on_self (with_queue []) w).
Proof.
  funelim (get_all_loop data_list w);
    repeat match goal with
           | Hsig : sigmaI _ _ _ = _ |- _ => clear Hsig
           | Hcall : get_all_loop _ _ = get_all_loop _ _ |- _ => clear Hcall
           end;
    match goal with
    | Hget : get_data false _ = _ |- _ =>
        rewrite get_data_false_eq in Hget;
        destruct (_queue (self w)) as [|item rest] eqn:Hq;
        inversion Hget; subst
    end.
  - match goal with IH : get_all_loop _ _ = (Return _, _) |- _ => rewrite IH end.
    simpl. rewrite <- app_assoc. reflexivity.
  - rewrite app_nil_r, <- Hq, with_queue_same. reflexivity.
Qed.

Lemma get_all_data_eq (w : World RawStatus) :
  get_all_data w = (Return (_queue (self w)), on_self (with_queue []) w).
Proof. unfold get_all_data. apply get_all_loop_eq. Qed.

Lemma put_all_queue (items : list RawStatus) (w : World RawStatus) :
  _queue (self (put_all items w)) = _queue (self w) ++ items.
Proof.
  unfold put_all. revert w.
  induction items as [|item items IH]; intros w; simpl.
  - rewrite app_nil_r. reflexivity.
  - rewrite IH. simpl. unfold Queue.put. rewrite <- app_assoc. reflexivity.
Qed.

(** C6: on an empty queue [get_data(block=False)] returns None, neither
    raising nor waiting, and leaves the collector as it was; on a
    non-empty queue it returns the oldest item and leaves the rest
    queued. *)
Theorem C6_get_data_nonblocking (w : World RawStatus) :
  (_queue (self w) = [] -> get_data false w = (Return None, w)) /\
  (forall (item : RawStatus) (rest : list RawStatus),
      _queue (self w) = item :: rest ->
      get_data false w = (Return (Some item), on_self (with_queue rest) w)).
Proof.
  rewrite get_data_false_eq. split.
  - intros ->. reflexivity.
  - intros item rest ->. reflexivity.
Qed.

(** C7: whatever the queue holds, and whatever is then put into it,
    [get_all_data()] returns all of it as one list, the items queued
    before followed by the new ones in the order they were put; called
    again with nothing put in between it returns the empty list. *)
Theorem C7_get_all_data_fifo (w : World RawStatus) (items : list RawStatus) :
  fst (get_all_data (put_all items w)) = Return (_queue (self w) ++ items) /\
  fst (get_all_data (snd (get_all_data (put_all items w)))) = Return [].
Proof.
  rewrite !get_all_data_eq. simpl.
  rewrite put_all_queue. split; reflexivity.
Qed.

(** C10: with nothing put into the queue meanwhile, right after
    [get_all_data()] has returned the queue is empty:
    [available_data()] returns 0 and [get_data(block=False)] returns
    None. *)
Theorem C10_queue_empty_after_drain (w : World RawStatus) :
  fst (available_data (snd (get_all_data w))) = Return 0 /\
  fst (get_data false (snd (get_all_data w))) = Return None.
Proof.
  rewrite get_all_data_eq, get_data_false_eq. split; reflexivity.
Qed.

End Consumer.

Lemma C6_get_data_nonblocking_witness :
  get_data false Stubs.example_world = (Return None, Stubs.example_world) /\
  get_data false (put_all [[("v", 1)]; [("v", 2)]] Stubs.example_world) =
  (Return (Some [("v", 1)]),
   on_self (with_queue [[("v", 2)]]) (put_all [[("v", 1)]; [("v", 2)]] Stubs.example_world)).
Proof.
  split.
  - apply (proj1 (C6_get_data_nonblocking Stubs.Reading Stubs.example_world)).
    reflexivity.
  - apply (proj2 (C6_get_data_nonblocking Stubs.Reading
                    (put_all [[("v", 1)]; [("v", 2)]] Stubs.example_world))).
    reflexivity.
Defined.

(** ** The life of the polling thread *)

Section Lifecycle.

Variable RawStatus : Type.
Variable gather : nat -> string -> Exn + list RawStatus.

Lemma stop_eq (w : World RawStatus) :
  stop w =
  (Return tt,
   mkWorld (set_stop_event (self w)) (Env.log DEBUG "Stop event set" (env w))).
Proof. reflexivity. Qed.

(** The world a fetch cycle leaves behind once the device has been
    asked: stop event set, one more request on record. *)
Lemma collect_data_eq (w : World RawStatus) :
  _collect_data gather w =
  let w1 := mkWorld (set_stop_event (self w))
              (Env.call (_host_ip (self w))
                 (Env.log DEBUG "Stop event set" (env w))) in
  match gather (length (Env.fetch_calls (env w))) (_host_ip (self w)) with
  | inl e => (Raise e, w1)
  | inr [data] => (Return data, on_env (Env.log DEBUG "data collected") w1)
  | inr l => (Raise (RuntimeError (length l)), w1)
  end.
Proof.
  unfold _collect_data, bind, gets, run_until_complete. rewrite stop_eq. simpl.
  destruct (gather _ _) as [e | [| data [| data' l]]]; reflexivity.
Qed.

Lemma run_loop_eq (periods : nat) (w : World RawStatus) :
  run_loop gather periods w =
  if _stop_event (self w)
  then (Return Stopped, on_env (Env.log DEBUG "collection thread stopped") w)
  else
    match periods with
    | O => (Return Polling, w)
    | S periods' =>
        match _collect_data gather w with
        | (Return data, w1) =>
            run_loop gather periods'
              (snd (time_sleep (snd (queue_put data w1))))
        | (Raise e, w1) => (Raise e, w1)
        | (Block, w1) => (Block, w1)
        end
    end.
Proof.
  destruct periods as [| periods']; simpl; unfold bind at 1, gets;
    destruct (_stop_event (self w)); reflexivity.
Qed.

Lemma collect_data_sets_stop (w : World RawStatus) :
  _stop_event (self (snd (_collect_data gather w))) = true.
Proof.
  rewrite collect_data_eq. cbv zeta.
  destruct (gather _ _) as [e | [| data [| data' l]]]; reflexivity.
Qed.

Lemma collect_data_calls (w : World RawStatus) :
  Env.fetch_calls (env (snd (_collect_data gather w))) =
  Env.fetch_calls (env w) ++ [_host_ip (self w)].
Proof.
  rewrite collect_data_eq. cbv zeta.
  destruct (gather _ _) as [e | [| data [| data' l]]]; reflexivity.
Qed.

Lemma collect_data_queue (w : World RawStatus) :
  _queue (self (snd (_collect_data gather w))) = _queue (self w).
Proof.
  rewrite collect_data_eq. cbv zeta.
  destruct (gather _ _) as [e | [| data [| data' l]]]; reflexivity.
Qed.

Lemma collect_data_never_blocks (w : World RawStatus) :
  fst (_collect_data gather w) <> Block.
Proof.
  rewrite collect_data_eq. cbv zeta.
  destruct (gather _ _) as [e | [| data [| data' l]]]; discriminate.
Qed.

(** One pass of the loop, started with the stop event clear and followed
    for at least one period. *)
Lemma run_loop_one_pass (periods : nat) (w : World RawStatus) :
  _stop_event (self w) = false ->
  run_loop gather (S periods) w =
  match _collect_data gather w with
  | (Return data, w1) =>
      (Return Stopped,
       on_env (Env.log DEBUG "collection thread stopped")
         (snd (time_sleep (snd (queue_put data w1)))))
  | (Raise e, w1) => (Raise e, w1)
  | (Block, w1) => (Block, w1)
  end.
Proof.
  intros Hclear. rewrite run_loop_eq, Hclear.
  pose proof (collect_data_sets_stop w) as Hset.
  destruct (_collect_data gather w) as [[data | e |] w1]; try reflexivity.
  rewrite run_loop_eq. simpl in *. rewrite Hset. reflexivity.
Qed.

Lemma run_eq (periods : nat) (w : World RawStatus) :
  run gather periods w =
  run_loop gather periods
    (on_env (Env.log DEBUG "collection thread started") w).
Proof. reflexivity. Qed.

Lemma set_stop_event_stop_times (n : nat) (w : World RawStatus) :
  set_stop_event (self (stop_times n w)) = set_stop_event (self w) /\
  Env.fetch_calls (env (stop_times n w)) = Env.fetch_calls (env w) /\
  Env.slept (env (stop_times n w)) = Env.slept (env w) /\
  Env.warnings (env (stop_times n w)) = Env.warnings (env w).
Proof.
  induction n as [| n (IHself & IHcalls & IHslept & IHwarn)].
  - repeat split.
  - unfold stop_times in *. simpl. rewrite <- IHself, <- IHcalls, <- IHslept, <- IHwarn.
    repeat split.
    unfold Env.warnings. simpl. rewrite filter_app. simpl.
    rewrite app_nil_r. reflexivity.
Qed.

(** C8: calling [stop()] any number of times beyond the first leaves
    the collector's attributes exactly as the first call left them,
    with the stop event set and nothing else changed; no call asks the
    device, sleeps or warns.  (Every call does write its "Stop event
    set" debug record to the log, which is not part of the collector.) *)
Theorem C8_stop_idempotent (n : nat) (w : World RawStatus) :
  self (stop_times (S n) w) = self (snd (stop w)) /\
  self (snd (stop w)) = set_stop_event (self w) /\
  Env.fetch_calls (env (stop_times (S n) w)) = Env.fetch_calls (env w) /\
  Env.slept (env (stop_times (S n) w)) = Env.slept (env w) /\
  Env.warnings (env (stop_times (S n) w)) = Env.warnings (env w).
Proof.
  destruct (set_stop_event_stop_times (S n) w) as (_ & Hcalls & Hslept & Hwarn).
  destruct (set_stop_event_stop_times n w) as (Hself & _).
  split; [exact Hself |].
  split; [reflexivity |].
  repeat split; assumption.
Qed.

(** C3: every fetch cycle leaves the stop event set, whether the fetch
    then succeeds or raises, so the loop never reaches a second cycle:
    followed for one period or more the thread is never found still
    polling, and however long it is followed it asks the device at most
    once and puts at most one item into the queue. *)
Theorem C3_self_stop_limits_to_one_cycle (periods : nat) (w : World RawStatus) :
  _stop_event (self (snd (_collect_data gather w))) = true /\
  fst (run gather (S periods) w) <> Return Polling /\
  (exists calls,
      Env.fetch_calls (env (snd (run gather periods w))) =
      Env.fetch_calls (env w) ++ calls /\ (length calls <= 1)%nat) /\
  (exists items,
      _queue (self (snd (run gather periods w))) =
      _queue (self w) ++ items /\ (length items <= 1)%nat).
Proof.
  split; [apply collect_data_sets_stop |].
  split.
  - rewrite run_eq.
    destruct (_stop_event (self w)) eqn:Hflag.
    + rewrite run_loop_eq. simpl. rewrite Hflag. discriminate.
    + rewrite run_loop_one_pass by exact Hflag.
      destruct (_collect_data gather _) as [[data | e |] w1]; discriminate.
  - rewrite run_eq.
    destruct (_stop_event (self w)) eqn:Hflag;
      [| destruct periods as [| periods']].
    + rewrite run_loop_eq. simpl. rewrite Hflag. simpl.
      split; exists []; rewrite app_nil_r; auto.
    + rewrite run_loop_eq. simpl. rewrite Hflag. simpl.
      split; exists []; rewrite app_nil_r; auto.
    + rewrite run_loop_one_pass by exact Hflag.
      rewrite collect_data_eq. cbv zeta. simpl.
      destruct (gather _ _) as [e | [| data [| data' l]]]; simpl;
        split;
        solve [ exists [_host_ip (self w)]; auto
              | exists [data]; auto
              | exists []; rewrite app_nil_r; auto ].
Qed.

(** C1 (what the code does instead): with a device that never fails, a
    freshly constructed collector followed for any number N >= 1 of
    interval periods has finished its loop after the first one; it has
    asked the device once, slept one interval, and its queue holds that
    single answer, so the queue depth is 1 whatever N is. *)
Theorem C1_queue_depth_is_one_after_any_periods
  (senec_ip : string) (interval_s : Z) (e e' : Env.t)
  (c : Collector RawStatus) (N : nat) :
  (forall i host, exists data, gather i host = inr [data]) ->
  __init__ RawStatus senec_ip interval_s e = (Return c, e') ->
  (1 <= N)%nat ->
  fst (run gather N (mkWorld c e')) = Return Stopped /\
  fst (available_data (snd (run gather N (mkWorld c e')))) = Return 1 /\
  gather (length (Env.fetch_calls e)) senec_ip =
    inr (_queue (self (snd (run gather N (mkWorld c e'))))) /\
  Env.fetch_calls (env (snd (run gather N (mkWorld c e')))) =
    Env.fetch_calls e ++ [senec_ip] /\
  Env.slept (env (snd (run gather N (mkWorld c e')))) =
    Env.slept e + interval_s.
Proof.
  intros Hok Hinit HN.
  rewrite init_eq in Hinit. cbv zeta in Hinit.
  destruct (interval_s <? 10); [discriminate |].
  injection Hinit as <- <-.
  destruct N as [| N']; [lia |].
  rewrite run_eq, run_loop_one_pass by reflexivity.
  rewrite collect_data_eq. cbv zeta.
  destruct (Hok (length (Env.fetch_calls e)) senec_ip) as [data Hdata].
  destruct (interval_s <? 60); simpl; rewrite Hdata; simpl;
    repeat split.
Qed.

(** C2 (amended): a fetch cycle that fails, by an exception from the
    device or by a gathered list without exactly one result, is not
    caught inside the loop: the exception leaves [run], which ends the
    thread in that first cycle with the stop event set, one request on
    record, nothing enqueued and no sleep.  It does not reach the
    consumer: on the world the thread leaves behind,
    [available_data()], [get_all_data()] and [get_data(block=False)]
    return normally what the untouched queue holds. *)
Theorem C2_cycle_error_leaves_run
  (periods : nat) (w : World RawStatus) (err : Exn) :
  _stop_event (self w) = false ->
  cycle_error gather w = Some err ->
  let w' :=
    mkWorld (set_stop_event (self w))
      (Env.call (_host_ip (self w))
         (Env.log DEBUG "Stop event set"
            (Env.log DEBUG "collection thread started" (env w)))) in
  run gather (S periods) w = (Raise err, w') /\
  fst (available_data w') = Return (Queue.qsize (_queue (self w))) /\
  fst (get_all_data w') = Return (_queue (self w)) /\
  fst (get_data false w') = Return (hd_error (_queue (self w))).
Proof.
  intros Hclear Herr w'.
  split.
  - rewrite run_eq, run_loop_one_pass by exact Hclear.
    rewrite collect_data_eq. cbv zeta. simpl.
    unfold cycle_error in Herr.
    destruct (gather _ _) as [e0 | [| data [| data' l]]]; simpl in Herr;
      try discriminate; injection Herr as <-; reflexivity.
  - rewrite get_all_data_eq, get_data_false_eq. simpl.
    repeat split.
    destruct (_queue (self w)); reflexivity.
Qed.

End Lifecycle.

Lemma C1_queue_depth_is_one_after_any_periods_witness :
  fst (run Stubs.counting 3
         (mkWorld (mkCollector "192.168.178.49" 10 false [])
            (Env.log WARNING interval_warning Env.empty))) = Return Stopped /\
  fst (available_data
         (snd (run Stubs.counting 3
                 (mkWorld (mkCollector "192.168.178.49" 10 false [])
                    (Env.log WARNING interval_warning Env.empty))))) = Return 1 /\
  Stubs.counting 0 "192.168.178.49" =
    inr (_queue (self
         (snd (run Stubs.counting 3
                 (mkWorld (mkCollector "192.168.178.49" 10 false [])
                    (Env.log WARNING interval_warning Env.empty)))))) /\
  Env.fetch_calls (env
         (snd (run Stubs.counting 3
                 (mkWorld (mkCollector "192.168.178.49" 10 false [])
                    (Env.log WARNING interval_warning Env.empty))))) =
    ["192.168.178.49"] /\
  Env.slept (env
         (snd (run Stubs.counting 3
                 (mkWorld (mkCollector "192.168.178.49" 10 false [])
                    (Env.log WARNING interval_warning Env.empty))))) = 10.
Proof.
  apply (C1_queue_depth_is_one_after_any_periods
           Stubs.Reading Stubs.counting
           "192.168.178.49" 10 Env.empty
           (Env.log WARNING interval_warning Env.empty)
           (mkCollector "192.168.178.49" 10 false []) 3).
  - intros i host. exists [("v", Z.of_nat i + 1)]. reflexivity.
  - reflexivity.
  - lia.
Defined.

(** C2 refuted as stated: with a device that fails on every request the
    thread of the module's example collector, followed for two periods,
    is ended by the device's exception in its first cycle; it has not
    gone on to a second request and is not in its loop any more. *)
Lemma C2_failing_fetch_ends_the_thread :
  fst (run Stubs.failing 2 Stubs.example_world) =
    Raise (FetchError "Cannot connect to host") /\
  Env.fetch_calls (env (snd (run Stubs.failing 2 Stubs.example_world))) =
    ["192.168.178.49"] /\
  ~ (exists status : LoopStatus,
        fst (run Stubs.failing 2 Stubs.example_world) = Return status).
Proof.
  split; [reflexivity |].
  split; [reflexivity |].
  intros [status Hstatus]. discriminate Hstatus.
Defined.

Lemma C2_cycle_error_leaves_run_witness :
  run Stubs.doubled 2 Stubs.example_world =
    (Raise (RuntimeError 2),
     mkWorld (set_stop_event (self Stubs.example_world))
       (Env.call "192.168.178.49"
          (Env.log DEBUG "Stop event set"
             (Env.log DEBUG "collection thread started"
                (env Stubs.example_world))))) /\
  fst (get_all_data
         (mkWorld (set_stop_event (self Stubs.example_world))
            (Env.call "192.168.178.49"
               (Env.log DEBUG "Stop event set"
                  (Env.log DEBUG "collection thread started"
                     (env Stubs.example_world)))))) = Return [].
Proof.
  destruct (C2_cycle_error_leaves_run Stubs.Reading Stubs.doubled 1
              Stubs.example_world (RuntimeError 2) eq_refl eq_refl)
    as (Hrun & _ & Hall & _).
  split; [exact Hrun | exact Hall].
Defined.

(** * Further properties of the collector *)

(** ** Reading the queue *)

Section Reading.

Variable RawStatus : Type.

Lemma get_data_eq (block : bool) (w : World RawStatus) :
  get_data block w =
  match _queue (self w) with
  | [] => if block then (Block, w) else (Return None, w)
  | item :: rest => (Return (Some item), on_self (with_queue rest) w)
  end.
Proof.
  unfold get_data, try_except, bind, queue_get, ret, Queue.get.
  destruct (_queue (self w)) as [|item rest] eqn:Hq; destruct block; simpl;
    try reflexivity; rewrite <- Hq, with_queue_same; reflexivity.
Qed.

(** X1: [get_data] never lets an exception out, whatever [block] is.
    It returns None only when [block] is false and the queue is empty;
    with [block] true an empty queue leaves the caller waiting, with the
    collector unchanged, and on a non-empty queue the flag makes no
    difference. *)
Theorem X1_get_data_block_flag (block : bool) (w : World RawStatus) :
  (forall e, fst (get_data block w) <> Raise e) /\
  (fst (get_data block w) = Return None <->
   block = false /\ _queue (self w) = []) /\
  (fst (get_data block w) = Block <->
   block = true /\ _queue (self w) = []) /\
  (fst (get_data block w) = Block -> snd (get_data block w) = w) /\
  (_queue (self w) <> [] -> get_data block w = get_data (negb block) w).
Proof.
  rewrite !get_data_eq.
  destruct (_queue (self w)) as [|item rest]; destruct block; simpl;
    repeat split; try discriminate; try tauto;
    try (intros [? ?]; discriminate); try congruence.
Qed.

(** X2: [available_data] only looks: it returns the number of queued
    items, never a negative number, and leaves the world as it was.
    Every put raises the count by one and every item handed out by
    [get_data] lowers it by one. *)
Theorem X2_available_data_counts
  (block : bool) (items : list RawStatus) (w : World RawStatus) :
  available_data w = (Return (Z.of_nat (length (_queue (self w)))), w) /\
  fst (available_data (put_all items w)) =
    Return (Z.of_nat (length (_queue (self w))) + Z.of_nat (length items)) /\
  (forall item,
      fst (get_data block w) = Return (Some item) ->
      fst (available_data (snd (get_data block w))) =
      Return (Z.of_nat (length (_queue (self w))) - 1)).
Proof.
  split; [reflexivity |]. split.
  - unfold available_data, gets, Queue.qsize. simpl.
    rewrite put_all_queue, length_app, Nat2Z.inj_add. reflexivity.
  - intros item. rewrite get_data_eq.
    destruct (_queue (self w)) as [|item' rest]; [destruct block; discriminate |].
    intros _. unfold available_data, gets, Queue.qsize.
    cbn -[Z.of_nat Z.sub]. f_equal. lia.
Qed.

(** X3: [get_all_data] hands out exactly as many items as
    [available_data] counted just before, and touches nothing but the
    queue: host, interval, stop event, log, device requests and slept
    time stay as they were. *)
Theorem X3_get_all_data_takes_what_was_counted (w : World RawStatus) :
  (exists data_list,
      fst (get_all_data w) = Return data_list /\
      fst (available_data w) = Return (Z.of_nat (length data_list))) /\
  _host_ip (self (snd (get_all_data w))) = _host_ip (self w) /\
  _interval_s (self (snd (get_all_data w))) = _interval_s (self w) /\
  _stop_event (self (snd (get_all_data w))) = _stop_event (self w) /\
  env (snd (get_all_data w)) = env w.
Proof.
  rewrite get_all_data_eq. simpl. split.
  - exists (_queue (self w)). split; reflexivity.
  - repeat split.
Qed.

(** X4: taking items one at a time and then the rest gives what taking
    them all at once gives: when [get_data] hands out an item, a
    following [get_all_data] returns the list that [get_all_data] would
    have returned in its place, less that first item, and both ways
    leave the same world. *)
Theorem X4_get_data_then_get_all_data
  (block : bool) (item : RawStatus) (w : World RawStatus) :
  fst (get_data block w) = Return (Some item) ->
  exists rest,
    fst (get_all_data (snd (get_data block w))) = Return rest /\
    fst (get_all_data w) = Return (item :: rest) /\
    snd (get_all_data (snd (get_data block w))) = snd (get_all_data w).
Proof.
  rewrite get_data_eq, !get_all_data_eq.
  destruct (_queue (self w)) as [|item' rest] eqn:Hq;
    [destruct block; discriminate |].
  simpl. intros [= ->]. exists rest. repeat split.
Qed.

End Reading.

Lemma X2_available_data_counts_witness :
  fst (get_data true (put_all [[("v", 1)]; [("v", 2)]] Stubs.example_world)) =
    Return (Some [("v", 1)]) /\
  fst (available_data
         (snd (get_data true
                 (put_all [[("v", 1)]; [("v", 2)]] Stubs.example_world)))) =
    Return 1.
Proof.
  split; [reflexivity |].
  apply (proj2 (proj2 (X2_available_data_counts Stubs.Reading true []
                         (put_all [[("v", 1)]; [("v", 2)]] Stubs.example_world)))
           [("v", 1)]).
  reflexivity.
Defined.

Lemma X4_get_data_then_get_all_data_witness :
  exists rest,
    fst (get_all_data
           (snd (get_data false
                   (put_all [[("v", 1)]; [("v", 2)]] Stubs.example_world)))) =
      Return rest /\
    fst (get_all_data (put_all [[("v", 1)]; [("v", 2)]] Stubs.example_world)) =
      Return ([("v", 1)] :: rest) /\
    snd (get_all_data
           (snd (get_data false
                   (put_all [[("v", 1)]; [("v", 2)]] Stubs.example_world)))) =
      snd (get_all_data (put_all [[("v", 1)]; [("v", 2)]] Stubs.example_world)).
Proof.
  apply (X4_get_data_then_get_all_data Stubs.Reading false [("v", 1)]
           (put_all [[("v", 1)]; [("v", 2)]] Stubs.example_world)).
  reflexivity.
Defined.

Lemma X1_get_data_block_flag_witness :
  (fst (get_data true Stubs.example_world) = Block /\
   snd (get_data true Stubs.example_world) = Stubs.example_world) /\
  get_data true (put_all [[("v", 1)]] Stubs.example_world) =
  get_data false (put_all [[("v", 1)]] Stubs.example_world).
Proof.
  pose proof (X1_get_data_block_flag Stubs.Reading true Stubs.example_world)
    as (_ & _ & Hblock & Hsame & _).
  pose proof (X1_get_data_block_flag Stubs.Reading true
                (put_all [[("v", 1)]] Stubs.example_world))
    as (_ & _ & _ & _ & Hflag).
  split.
  - split; [apply Hblock; split; reflexivity |].
    apply Hsame. apply Hblock. split; reflexivity.
  - apply Hflag. discriminate.
Defined.

(** ** One fetch cycle and one run of the thread *)

Section Cycle.

Variable RawStatus : Type.
Variable gather : nat -> string -> Exn + list RawStatus.

(** X5: a fetch cycle returns a value exactly when the asyncio bridge
    answered with a list of exactly one result, and the value is that
    result, untouched.  Successful or not, the cycle asks the device
    exactly once, for the configured host, does not touch the queue
    and never leaves its caller waiting. *)
Theorem X5_collect_data_one_result (data : RawStatus) (w : World RawStatus) :
  (fst (_collect_data gather w) = Return data <->
   gather (length (Env.fetch_calls (env w))) (_host_ip (self w)) = inr [data]) /\
  Env.fetch_calls (env (snd (_collect_data gather w))) =
    Env.fetch_calls (env w) ++ [_host_ip (self w)] /\
  _queue (self (snd (_collect_data gather w))) = _queue (self w) /\
  fst (_collect_data gather w) <> Block.
Proof.
  split; [| split; [apply collect_data_calls |
                    split; [apply collect_data_queue |
                            apply collect_data_never_blocks]]].
  rewrite collect_data_eq. cbv zeta.
  destruct (gather _ _) as [e | [| data0 [| data' l]]]; simpl;
    split; intros H; try discriminate; congruence.
Qed.

Lemma run_stopped (periods : nat) (w : World RawStatus) :
  _stop_event (self w) = true ->
  run gather periods w =
  (Return Stopped,
   on_env (Env.log DEBUG "collection thread stopped")
     (on_env (Env.log DEBUG "collection thread started") w)).
Proof.
  intros Hset. rewrite run_eq, run_loop_eq. simpl. rewrite Hset. reflexivity.
Qed.

(** X6: a thread body started with the stop event already set, as after
    a [stop()] that came first, returns at once: it does not ask the
    device, puts nothing into the queue and does not sleep; all it
    leaves are its two debug records. *)
Theorem X6_run_after_stop_does_nothing (periods : nat) (w : World RawStatus) :
  _stop_event (self w) = true ->
  run gather periods w =
  (Return Stopped,
   on_env (Env.log DEBUG "collection thread stopped")
     (on_env (Env.log DEBUG "collection thread started") w)).
Proof. apply run_stopped. Qed.

(** X7: a thread body started with the stop event clear, and whose one
    request is answered with one result, puts that result behind the
    items already queued, then sleeps one full interval although the
    stop event is set by then, and returns.  It leaves four debug
    records, in this order: thread started, stop event set, data
    collected, thread stopped.  A following [get_all_data()] returns the
    older items followed by the new one. *)
Theorem X7_run_successful_cycle
  (periods : nat) (data : RawStatus) (w : World RawStatus) :
  _stop_event (self w) = false ->
  gather (length (Env.fetch_calls (env w))) (_host_ip (self w)) = inr [data] ->
  run gather (S periods) w =
  (Return Stopped,
   mkWorld
     (mkCollector (_host_ip (self w)) (_interval_s (self w)) true
        (_queue (self w) ++ [data]))
     (Env.mk
        (Env.logging (env w) ++
           [(DEBUG, "collection thread started"); (DEBUG, "Stop event set");
            (DEBUG, "data collected"); (DEBUG, "collection thread stopped")])
        (Env.fetch_calls (env w) ++ [_host_ip (self w)])
        (Env.slept (env w) + _interval_s (self w)))) /\
  fst (get_all_data (snd (run gather (S periods) w))) =
    Return (_queue (self w) ++ [data]).
Proof.
  intros Hclear Hdata.
  assert (Hrun : run gather (S periods) w =
    (Return Stopped,
     mkWorld
       (mkCollector (_host_ip (self w)) (_interval_s (self w)) true
          (_queue (self w) ++ [data]))
       (Env.mk
          (Env.logging (env w) ++
             [(DEBUG, "collection thread started"); (DEBUG, "Stop event set");
              (DEBUG, "data collected"); (DEBUG, "collection thread stopped")])
          (Env.fetch_calls (env w) ++ [_host_ip (self w)])
          (Env.slept (env w) + _interval_s (self w))))).
  { rewrite run_eq, run_loop_one_pass by exact Hclear.
    rewrite collect_data_eq. cbv zeta. simpl. rewrite Hdata. simpl.
    unfold on_env, Env.log, Env.sleep, Env.call, Queue.put. simpl.
    rewrite <- !app_assoc. reflexivity. }
  split; [exact Hrun |].
  rewrite Hrun, get_all_data_eq. reflexivity.
Qed.

End Cycle.

Lemma X6_run_after_stop_does_nothing_witness :
  run Stubs.counting 3 (snd (stop Stubs.example_world)) =
  (Return Stopped,
   on_env (Env.log DEBUG "collection thread stopped")
     (on_env (Env.log DEBUG "collection thread started")
        (snd (stop Stubs.example_world)))).
Proof.
  apply (X6_run_after_stop_does_nothing Stubs.Reading Stubs.counting 3
           (snd (stop Stubs.example_world))).
  reflexivity.
Defined.

Lemma X7_run_successful_cycle_witness :
  fst (get_all_data
         (snd (run Stubs.counting 2
                 (put_all [[("v", 0)]] Stubs.example_world)))) =
  Return [[("v", 0)]; [("v", 1)]].
Proof.
  apply (proj2 (X7_run_successful_cycle Stubs.Reading Stubs.counting 1
                  [("v", 1)] (put_all [[("v", 0)]] Stubs.example_world)
                  eq_refl eq_refl)).
Defined.

(** ** The whole life of a collector *)

Section Lifetime.

Variable RawStatus : Type.
Variable gather : nat -> string -> Exn + list RawStatus.

(** Splits a goal about [run gather periods w] into the ways the thread
    body can go: stop event already set, no period to run in, and one
    pass of the loop for each kind of answer of the device. *)
Ltac run_cases periods w :=
  let Hflag := fresh "Hflag" in
  rewrite ?run_eq;
  destruct (_stop_event (self w)) eqn:Hflag;
  [ rewrite ?run_loop_eq; simpl; rewrite ?Hflag; simpl
  | destruct periods as [| ?periods'];
    [ rewrite ?run_loop_eq; simpl; rewrite ?Hflag; simpl
    | rewrite ?run_loop_one_pass by exact Hflag;
      rewrite ?collect_data_eq; cbv zeta; simpl;
      destruct (gather _ _) as [?e | [| ?data [| ?data' ?l]]]; simpl ] ].

(** What one call can do to a collector. *)
Lemma after_call_frame (c : Call) (w : World RawStatus) :
  _host_ip (self (after_call gather c w)) = _host_ip (self w) /\
  _interval_s (self (after_call gather c w)) = _interval_s (self w) /\
  (_stop_event (self w) = true ->
   _stop_event (self (after_call gather c w)) = true) /\
  (Env.fetch_calls (env (after_call gather c w)) = Env.fetch_calls (env w) /\
   Env.slept (env (after_call gather c w)) = Env.slept (env w) \/
   _stop_event (self w) = false /\
   _stop_event (self (after_call gather c w)) = true /\
   Env.fetch_calls (env (after_call gather c w)) =
     Env.fetch_calls (env w) ++ [_host_ip (self w)] /\
   (Env.slept (env (after_call gather c w)) = Env.slept (env w) \/
    Env.slept (env (after_call gather c w)) =
      Env.slept (env w) + _interval_s (self w))).
Proof.
  destruct c as [| periods | | block |]; simpl.
  - repeat split; auto.
  - run_cases periods w; repeat split; auto; try discriminate;
      right; repeat split; auto.
  - repeat split; auto.
  - rewrite get_data_eq.
    destruct (_queue (self w)); [destruct block |]; repeat split; auto.
  - rewrite get_all_data_eq. repeat split; auto.
Qed.

(** What one call can do once the stop event is set. *)
Lemma after_call_stopped (c : Call) (w : World RawStatus) :
  _stop_event (self w) = true ->
  _stop_event (self (after_call gather c w)) = true /\
  Env.fetch_calls (env (after_call gather c w)) = Env.fetch_calls (env w) /\
  Env.slept (env (after_call gather c w)) = Env.slept (env w) /\
  exists taken, _queue (self w) = taken ++ _queue (self (after_call gather c w)).
Proof.
  intros Hset.
  destruct c as [| periods | | block |]; simpl.
  - repeat split. exists []. reflexivity.
  - rewrite run_stopped by exact Hset. simpl.
    repeat split; auto. exists []. reflexivity.
  - repeat split; auto. exists []. reflexivity.
  - rewrite get_data_eq.
    destruct (_queue (self w)) as [| item rest] eqn:Hq; [destruct block |];
      simpl; rewrite ?Hq; repeat split; auto;
      solve [exists []; reflexivity | exists [item]; reflexivity].
  - rewrite get_all_data_eq. simpl. repeat split; auto.
    exists (_queue (self w)). rewrite app_nil_r. reflexivity.
Qed.

Lemma after_calls_cons (c : Call) (calls : list Call) (w : World RawStatus) :
  after_calls gather (c :: calls) w =
  after_calls gather calls (after_call gather c w).
Proof. reflexivity. Qed.

Lemma after_calls_stopped (calls : list Call) (w : World RawStatus) :
  _stop_event (self w) = true ->
  _stop_event (self (after_calls gather calls w)) = true /\
  Env.fetch_calls (env (after_calls gather calls w)) = Env.fetch_calls (env w) /\
  Env.slept (env (after_calls gather calls w)) = Env.slept (env w) /\
  exists taken, _queue (self w) = taken ++ _queue (self (after_calls gather calls w)).
Proof.
  revert w. induction calls as [| c calls IH]; intros w Hset.
  - repeat split; auto. exists []. reflexivity.
  - rewrite after_calls_cons.
    destruct (after_call_stopped c w Hset) as (Hset1 & Hcalls1 & Hslept1 & taken1 & Hq1).
    destruct (IH _ Hset1) as (Hset2 & Hcalls2 & Hslept2 & taken2 & Hq2).
    repeat split; try congruence.
    exists (taken1 ++ taken2). rewrite <- app_assoc, <- Hq2. exact Hq1.
Qed.

Lemma after_calls_frame (calls : list Call) (w : World RawStatus) :
  _host_ip (self (after_calls gather calls w)) = _host_ip (self w) /\
  _interval_s (self (after_calls gather calls w)) = _interval_s (self w) /\
  (_stop_event (self w) = true ->
   _stop_event (self (after_calls gather calls w)) = true).
Proof.
  revert w. induction calls as [| c calls IH]; intros w.
  - repeat split; auto.
  - rewrite after_calls_cons.
    destruct (after_call_frame c w) as (Hhost & Hinterval & Hkept & _).
    destruct (IH (after_call gather c w)) as (Hhost' & Hinterval' & Hkept').
    repeat split; try congruence. auto.
Qed.

(** X8: no sequence of calls (stop, the thread body, available_data,
    get_data, get_all_data) changes the host or the interval of a
    collector, and none clears the stop event once it is set. *)
Theorem X8_configuration_fixed_stop_event_kept
  (calls : list Call) (w : World RawStatus) :
  _host_ip (self (after_calls gather calls w)) = _host_ip (self w) /\
  _interval_s (self (after_calls gather calls w)) = _interval_s (self w) /\
  (_stop_event (self w) = true ->
   _stop_event (self (after_calls gather calls w)) = true).
Proof. apply after_calls_frame. Qed.

(** X9: over any sequence of calls a collector asks the device at most
    once, and then for its own host, and it sleeps at most one interval,
    and only if it has asked.  Once the stop event is set it never asks
    again and never sleeps, and nothing is put into the queue any more:
    what the queue holds afterwards is what is left of what it held
    before. *)
Theorem X9_at_most_one_request_in_a_lifetime
  (calls : list Call) (w : World RawStatus) :
  (Env.fetch_calls (env (after_calls gather calls w)) = Env.fetch_calls (env w) /\
   Env.slept (env (after_calls gather calls w)) = Env.slept (env w) \/
   Env.fetch_calls (env (after_calls gather calls w)) =
     Env.fetch_calls (env w) ++ [_host_ip (self w)] /\
   (Env.slept (env (after_calls gather calls w)) = Env.slept (env w) \/
    Env.slept (env (after_calls gather calls w)) =
      Env.slept (env w) + _interval_s (self w))) /\
  (_stop_event (self w) = true ->
   Env.fetch_calls (env (after_calls gather calls w)) = Env.fetch_calls (env w) /\
   Env.slept (env (after_calls gather calls w)) = Env.slept (env w) /\
   exists taken,
     _queue (self w) = taken ++ _queue (self (after_calls gather calls w))).
Proof.
  split.
  - revert w. induction calls as [| c calls IH]; intros w.
    + left. split; reflexivity.
    + rewrite after_calls_cons.
      destruct (after_call_frame c w)
        as (Hhost & Hinterval & _ & [(Hsame & Hslept) | (_ & Hset & Hone & Hslept)]).
      * destruct (IH (after_call gather c w)) as [(H & H') | (H & [H' | H'])];
          rewrite H, H', Hsame, Hslept, ?Hhost, ?Hinterval; auto.
      * right.
        destruct (after_calls_stopped calls _ Hset) as (_ & Hcalls & Hslept' & _).
        rewrite Hcalls, Hslept'. auto.
  - intros Hset.
    destruct (after_calls_stopped calls w Hset) as (_ & Hcalls & Hslept & Htaken).
    auto.
Qed.

(** X10: a collector that the constructor has returned keeps, through
    any sequence of calls, the host it was given and an interval of at
    least 10 seconds. *)
Theorem X10_constructed_interval_stays_valid
  (senec_ip : string) (interval_s : Z) (e e' : Env.t)
  (c : Collector RawStatus) (calls : list Call) :
  __init__ RawStatus senec_ip interval_s e = (Return c, e') ->
  _host_ip (self (after_calls gather calls (mkWorld c e'))) = senec_ip /\
  _interval_s (self (after_calls gather calls (mkWorld c e'))) = interval_s /\
  10 <= _interval_s (self (after_calls gather calls (mkWorld c e'))).
Proof.
  intros Hinit. rewrite init_eq in Hinit. cbv zeta in Hinit.
  destruct (interval_s <? 10) eqn:Hlt; [discriminate |].
  injection Hinit as <- <-.
  destruct (after_calls_frame calls
              (mkWorld (mkCollector senec_ip interval_s false [])
                 (if interval_s <? 60
                  then Env.log WARNING interval_warning e else e)))
    as (Hhost & Hinterval & _).
  rewrite Hhost, Hinterval. simpl.
  apply Z.ltb_ge in Hlt. auto.
Qed.

End Lifetime.

Lemma X8_configuration_fixed_stop_event_kept_witness :
  _stop_event
    (self (after_calls Stubs.counting
             [CallRun 2; CallGetData false; CallStop; CallRun 1; CallGetAllData]
             (snd (stop Stubs.example_world)))) = true.
Proof.
  apply (proj2 (proj2 (X8_configuration_fixed_stop_event_kept
                         Stubs.Reading Stubs.counting
                         [CallRun 2; CallGetData false; CallStop; CallRun 1;
                          CallGetAllData]
                         (snd (stop Stubs.example_world))))).
  reflexivity.
Defined.

Lemma X9_at_most_one_request_in_a_lifetime_witness :
  Env.fetch_calls
    (env (after_calls Stubs.counting
            [CallRun 3; CallGetData true; CallRun 2]
            (snd (run Stubs.counting 1 Stubs.example_world)))) =
  ["192.168.178.49"] /\
  Env.slept
    (env (after_calls Stubs.counting
            [CallRun 3; CallGetData true; CallRun 2]
            (snd (run Stubs.counting 1 Stubs.example_world)))) = 30.
Proof.
  destruct (proj2 (X9_at_most_one_request_in_a_lifetime
                     Stubs.Reading Stubs.counting
                     [CallRun 3; CallGetData true; CallRun 2]
                     (snd (run Stubs.counting 1 Stubs.example_world)))
              eq_refl)
    as (Hcalls & Hslept & _).
  split; [exact Hcalls | exact Hslept].
Defined.

Lemma X10_constructed_interval_stays_valid_witness :
  _host_ip
    (self (after_calls Stubs.counting [CallRun 2; CallStop; CallGetAllData]
             Stubs.example_world)) = "192.168.178.49" /\
  _interval_s
    (self (after_calls Stubs.counting [CallRun 2; CallStop; CallGetAllData]
             Stubs.example_world)) = 30 /\
  10 <= _interval_s
    (self (after_calls Stubs.counting [CallRun 2; CallStop; CallGetAllData]
             Stubs.example_world)).
Proof.
  apply (X10_constructed_interval_stays_valid Stubs.Reading Stubs.counting
           "192.168.178.49" 30 Env.empty
           (Env.log WARNING interval_warning Env.empty)
           (mkCollector "192.168.178.49" 30 false [])
           [CallRun 2; CallStop; CallGetAllData]).
  reflexivity.
Defined.

Lemma X5_collect_data_one_result_witness :
  fst (_collect_data Stubs.counting Stubs.example_world) = Return [("v", 1)].
Proof.
  apply (proj1 (X5_collect_data_one_result Stubs.Reading Stubs.counting
                  [("v", 1)] Stubs.example_world)).
  reflexivity.
Defined.
